(** * Flow rule compilation and dispatch of magma/pipelined/openflow/flows.py

    A shallow embedding of the module [flows.py]: the construction of
    add and delete flow modification messages, the two structural checks
    on the caller's action list, and the hand-over of the built message
    to the dispatch layer together with a retry count.

    Python values are embedded as follows.
    - An action is an object of one of the parser's classes; the code
      only distinguishes [NXActionResubmitTable] and [NXActionRegLoad2]
      (by [isinstance]); every other class is [OFPActionOther].
    - A dict ([match.ryu_match], [**kwargs]) is a [gmap string Z].
    - [None] as the value of an optional argument is [None : option _];
      for a parameter whose Python default is not [None] the [option]
      says whether the caller passed the keyword at all.
    - [raise] is the left injection of [result]; the dispatch layer
      threads the state of the control channel. *)

From Stdlib Require Import ZArith String List.
From stdpp Require Import base option list gmap strings.

Local Open Scope string_scope.
Local Open Scope Z_scope.
Local Open Scope list_scope.

(** ** Module constants (flows.py, lines 17-20) *)

Definition DEFAULT_PRIORITY : Z := 10.
Definition MINIMUM_PRIORITY : Z := 0.
Definition MAXIMUM_PRIORITY : Z := 65535.
Definition OVS_COOKIE_MATCH_ALL : Z := 0xffffffff.

(** Modelled from the spec: the constant [REG_ZERO_VAL] is imported from
    [magma.pipelined.openflow.registers], which is not part of the
    sources at hand; the specification says every reset load sets "the
    register to zero". *)
Definition REG_ZERO_VAL : Z := 0.

(** ** The OpenFlow vocabulary built through [datapath.ofproto_parser] *)

Inductive OFPAction : Type :=
| NXActionResubmitTable (table_id : Z)
| NXActionRegLoad2 (dst : string) (value : Z)
| OFPActionOther (opaque : Z).

Inductive OFPInstruction : Type :=
| OFPInstructionActions (type_ : Z) (actions : list OFPAction)
| OFPInstructionOther (opaque : Z).

(** The constants of [datapath.ofproto] the module reads. *)
Record Ofproto : Type := {
  OFPFC_DELETE : Z;
  OFPG_ANY : Z;
  OFPP_ANY : Z;
  OFPIT_APPLY_ACTIONS : Z
}.

Record Datapath : Type := {
  dp_id : Z;
  dp_ofproto : Ofproto
}.

(** Modelled from the spec: the class [MagmaMatch] lives in
    [magma.pipelined.openflow.magma_match], which is not part of the
    sources at hand.  The code reads its [ryu_match] dict only; the
    specification calls the match an opaque predicate that is forwarded
    unchanged. *)
Record MagmaMatch : Type := { ryu_match : gmap string Z }.

(** Modelled from the spec: [MagmaMatch()] without arguments is the
    "empty/wildcard match that matches every entry", that is, a match
    with no constrained field. *)
Definition MagmaMatch_empty : MagmaMatch := {| ryu_match := ∅ |}.

(** [parser.OFPMatch], built from the keywords of a dict. *)
Record OFPMatch : Type := { match_fields : gmap string Z }.

(** [parser.OFPFlowMod(datapath=..., ...)].  A field of type [option] is
    a keyword the call site may leave out ([None]: the constructor keeps
    its own default); [fm_kwargs] holds further keywords forwarded by
    [delete_flow]. *)
Record OFPFlowMod : Type := {
  fm_datapath : Z;
  fm_command : option Z;
  fm_priority : option Z;
  fm_match : OFPMatch;
  fm_instructions : list OFPInstruction;
  fm_table_id : Z;
  fm_cookie : option Z;
  fm_idle_timeout : option Z;
  fm_hard_timeout : option Z;
  fm_out_group : option Z;
  fm_out_port : option Z;
  fm_kwargs : gmap string Z
}.

(** ** Exceptions *)

Inductive exn : Type :=
| PyException (msg : string)
| PyTypeError (keyword : string)
| MagmaOFError (attempts : nat).

(** [PyTypeError k]: the keyword [k] reached a call twice.
    [MagmaOFError n]: the dispatch layer gave up after [n] attempts.
    The two structural errors are plain [Exception]s told apart by their
    message (flows.py, lines 222-225 and 233-235). *)
Definition RawResubmitNotAllowed : exn :=
  PyException "Actions list should not contain NXActionResubmitTable".

Definition ScratchRegisterConflict : exn :=
  PyException (String.append
                 "Scratch register should not be loaded when "
                 "resubmitting to another table owned by other apps").

Definition result (A : Type) : Type := exn + A.

#[export] Instance result_ret : MRet result := λ A x, inr x.
#[export] Instance result_bind : MBind result :=
  λ A B f m, match m with inl e => inl e | inr x => f x end.

Definition raise {A : Type} (e : exn) : result A := inl e.

(** ** The control channel and the dispatch layer *)

(** The channel is an external collaborator: [ch_outcome i] tells whether
    the [i]-th delivery attempt made on the channel is acknowledged, and
    [ch_log] records every attempt, oldest first, with its outcome. *)
Record channel : Type := {
  ch_outcome : nat → bool;
  ch_log : list (OFPFlowMod * bool)
}.

Definition dispatch (A : Type) : Type := channel → result A * channel.

#[export] Instance dispatch_ret : MRet dispatch := λ A x ch, (inr x, ch).
#[export] Instance dispatch_bind : MBind dispatch :=
  λ A B f m ch, match m ch with
                | (inl e, ch') => (inl e, ch')
                | (inr x, ch') => f x ch'
                end.

Definition lift_result {A : Type} (r : result A) : dispatch A :=
  λ ch, (r, ch).

(** [datapath.send_msg(msg)]: one delivery attempt. *)
Definition channel_send (msg : OFPFlowMod) (ch : channel) : bool * channel :=
  let ok := ch_outcome ch (length (ch_log ch)) in
  (ok, {| ch_outcome := ch_outcome ch; ch_log := ch_log ch ++ [(msg, ok)] |}).

(** Modelled from the spec: [messages.send_msg] is defined in
    [magma.pipelined.openflow.messages], which is not part of the sources
    at hand.  The specification: "Attempts delivery up to maxRetries + 1
    times total", synchronously; "Exhausting retries yields a terminal
    DispatchError", "surfaced to caller with attempt count".  [made]
    counts the attempts that already failed. *)
Fixpoint send_attempts (msg : OFPFlowMod) (retries made : nat) : dispatch () :=
  λ ch,
    let '(ok, ch') := channel_send msg ch in
    if ok then (inr (), ch')
    else match retries with
         | O => (inl (MagmaOFError (S made)), ch')
         | S retries' => send_attempts msg retries' (S made) ch'
         end.

Definition send_msg (datapath : Datapath) (msg : OFPFlowMod) (retries : nat)
  : dispatch () :=
  send_attempts msg retries 0.

(** ** Keyword arguments of [add_flow] and [get_add_flow_msg] *)

Record flow_kwargs : Type := {
  kw_actions : option (list OFPAction);
  kw_instructions : option (list OFPInstruction);
  kw_priority : option Z;
  kw_cookie : option Z;
  kw_idle_timeout : option Z;
  kw_hard_timeout : option Z;
  kw_resubmit_next_service : option Z;
  kw_resubmit_current_service : option Z
}.

(** Truth value of an optional list, as in [if actions] and
    [instructions or []]. *)
Definition truthy {A : Type} (o : option (list A)) : bool :=
  match o with
  | Some (_ :: _) => true
  | _ => false
  end.

Definition is_resubmit (action : OFPAction) : bool :=
  match action with
  | NXActionResubmitTable _ => true
  | _ => false
  end.

(** Keywords that [delete_flow] passes to [OFPFlowMod] itself; Python
    rejects a call that repeats one of them through [**kwargs]. *)
Definition delete_flow_keywords : list string :=
  ["datapath"; "command"; "match"; "instructions"; "table_id";
   "out_group"; "out_port"].

Definition forwarded_keywords : list string :=
  ["priority"; "cookie"; "idle_timeout"; "hard_timeout"].

(** ** Sample values

    The OpenFlow 1.4 constants, a datapath, a scratch register set of
    three registers, and channels with a fixed behaviour. *)

Definition sample_ofproto : Ofproto :=
  {| OFPFC_DELETE := 3;
     OFPG_ANY := 0xffffffff;
     OFPP_ANY := 0xffffffff;
     OFPIT_APPLY_ACTIONS := 4 |}.

Definition sample_datapath : Datapath :=
  {| dp_id := 1; dp_ofproto := sample_ofproto |}.

Definition sample_regs : list string := ["reg1"; "reg2"; "reg3"].

(** A call that passes [actions] and the two forwarding targets and
    leaves every other keyword out. *)
Definition sample_kwargs (actions : option (list OFPAction))
    (next current : option Z) : flow_kwargs :=
  {| kw_actions := actions;
     kw_instructions := None;
     kw_priority := None;
     kw_cookie := None;
     kw_idle_timeout := None;
     kw_hard_timeout := None;
     kw_resubmit_next_service := next;
     kw_resubmit_current_service := current |}.

(** A fresh channel that refuses its first [n] attempts and acknowledges
    every later one. *)
Definition fails_first (n : nat) : channel :=
  {| ch_outcome := λ i, (n <=? i)%nat; ch_log := [] |}.

(** A fresh channel that refuses every attempt. *)
Definition always_fails : channel :=
  {| ch_outcome := λ _, false; ch_log := [] |}.

Section Flows.

(** [SCRATCH_REGS] is imported from [magma.pipelined.openflow.registers],
    which is not part of the sources at hand: the development is
    parametric in it. *)
Variable SCRATCH_REGS : list string.

(** flows.py, lines 205-213 *)
Definition __get_instructions_for_actions (ofproto : Ofproto)
    (actions : option (list OFPAction))
    (instructions : option (list OFPInstruction)) : list OFPInstruction :=
  if truthy actions && (0 <? length (default [] actions))%nat then
    [OFPInstructionActions (OFPIT_APPLY_ACTIONS ofproto) (default [] actions)]
  else
    if truthy instructions then default [] instructions else [].

Definition is_scratch_reg_load (action : OFPAction) : bool :=
  match action with
  | NXActionRegLoad2 dst _ => bool_decide (dst ∈ SCRATCH_REGS)
  | _ => false
  end.

(** flows.py, lines 216-225 *)
Definition _check_scratch_reg_load (actions : option (list OFPAction))
  : result () :=
  let scratch_reg_load_action_exists :=
    match actions with
    | None => false
    | Some actions => existsb is_scratch_reg_load actions
    end in
  if scratch_reg_load_action_exists then raise ScratchRegisterConflict
  else mret ().

(** flows.py, lines 228-235 *)
Definition _check_resubmit_action (actions : list OFPAction) : result () :=
  let resubmit_action_exists := existsb is_resubmit actions in
  if resubmit_action_exists then raise RawResubmitNotAllowed
  else mret ().

(** flows.py, lines 71-138 *)
Definition get_add_flow_msg (datapath : Datapath) (table : Z)
    (match_ : MagmaMatch) (kw : flow_kwargs) : result OFPFlowMod :=
  let ofproto := dp_ofproto datapath in
  let priority := default MINIMUM_PRIORITY (kw_priority kw) in
  let cookie := default 0 (kw_cookie kw) in
  let idle_timeout := default 0 (kw_idle_timeout kw) in
  let hard_timeout := default 0 (kw_hard_timeout kw) in
  let actions := default [] (kw_actions kw) in
  _check_resubmit_action actions;;
  actions ←
    match kw_resubmit_next_service kw with
    | Some resubmit_next_service =>
        _check_scratch_reg_load (Some actions);;
        let actions :=
          actions ++ [NXActionResubmitTable resubmit_next_service] in
        let reset_scratch_reg_actions :=
          (λ reg, NXActionRegLoad2 reg REG_ZERO_VAL) <$> SCRATCH_REGS in
        mret (actions ++ reset_scratch_reg_actions)
    | None =>
        match kw_resubmit_current_service kw with
        | Some resubmit_current_service =>
            mret (actions ++
                  [NXActionResubmitTable resubmit_current_service])
        | None => mret actions
        end
    end;
  let inst :=
    __get_instructions_for_actions ofproto (Some actions)
                                   (kw_instructions kw) in
  let ryu_match := {| match_fields := ryu_match match_ |} in
  mret {| fm_datapath := dp_id datapath;
          fm_command := None;
          fm_priority := Some priority;
          fm_match := ryu_match;
          fm_instructions := inst;
          fm_table_id := table;
          fm_cookie := Some cookie;
          fm_idle_timeout := Some idle_timeout;
          fm_hard_timeout := Some hard_timeout;
          fm_out_group := None;
          fm_out_port := None;
          fm_kwargs := ∅ |}.

(** flows.py, lines 23-68.  [add_flow] resolves its own defaults and
    passes every keyword on explicitly; the debug log line has no
    effect on the result. *)
Definition add_flow (datapath : Datapath) (table : Z) (match_ : MagmaMatch)
    (retries : option nat) (kw : flow_kwargs) : dispatch () :=
  let priority := default MINIMUM_PRIORITY (kw_priority kw) in
  let retries := default 3%nat retries in
  let cookie := default 0 (kw_cookie kw) in
  let idle_timeout := default 0 (kw_idle_timeout kw) in
  let hard_timeout := default 0 (kw_hard_timeout kw) in
  mod_ ← lift_result
    (get_add_flow_msg datapath table match_
       {| kw_actions := kw_actions kw;
          kw_instructions := kw_instructions kw;
          kw_priority := Some priority;
          kw_cookie := Some cookie;
          kw_idle_timeout := Some idle_timeout;
          kw_hard_timeout := Some hard_timeout;
          kw_resubmit_next_service := kw_resubmit_next_service kw;
          kw_resubmit_current_service := kw_resubmit_current_service kw |});
  send_msg datapath mod_ retries.

(** flows.py, lines 156-186 *)
Definition delete_flow (datapath : Datapath) (table : Z)
    (match_ : MagmaMatch) (actions : option (list OFPAction))
    (instructions : option (list OFPInstruction)) (retries : option nat)
    (kwargs : gmap string Z) : dispatch () :=
  let retries := default 3%nat retries in
  let ofproto := dp_ofproto datapath in
  let inst := __get_instructions_for_actions ofproto actions instructions in
  let ryu_match := {| match_fields := ryu_match match_ |} in
  mod_ ← lift_result
    (match filter (λ k, is_Some (kwargs !! k)) delete_flow_keywords with
     | k :: _ => raise (PyTypeError k)
     | [] =>
         mret {| fm_datapath := dp_id datapath;
                 fm_command := Some (OFPFC_DELETE ofproto);
                 fm_priority := kwargs !! "priority";
                 fm_match := ryu_match;
                 fm_instructions := inst;
                 fm_table_id := table;
                 fm_cookie := kwargs !! "cookie";
                 fm_idle_timeout := kwargs !! "idle_timeout";
                 fm_hard_timeout := kwargs !! "hard_timeout";
                 fm_out_group := Some (OFPG_ANY ofproto);
                 fm_out_port := Some (OFPP_ANY ofproto);
                 fm_kwargs :=
                   foldr delete kwargs forwarded_keywords |}
     end);
  send_msg datapath mod_ retries.

(** flows.py, lines 189-202 *)
Definition delete_all_flows_from_table (datapath : Datapath) (table : Z)
    (retries : option nat) : dispatch () :=
  let empty_match := MagmaMatch_empty in
  delete_flow datapath table empty_match None None retries ∅.

(** ** Vocabulary of the properties *)

(** The action list holds a raw forward-to-table action. *)
Definition has_resubmit (actions : list OFPAction) : Prop :=
  ∃ table_id, NXActionResubmitTable table_id ∈ actions.

(** The action list holds a register load whose destination is a
    scratch register. *)
Definition has_scratch_load (actions : list OFPAction) : Prop :=
  ∃ dst value, NXActionRegLoad2 dst value ∈ actions ∧ dst ∈ SCRATCH_REGS.

(** One zero load per scratch register, in the order of [SCRATCH_REGS]. *)
Definition scratch_resets : list OFPAction :=
  (λ reg, NXActionRegLoad2 reg 0) <$> SCRATCH_REGS.

(** The caller's actions followed by what the forwarding mode appends. *)
Definition extended_actions (kw : flow_kwargs) : list OFPAction :=
  let actions := default [] (kw_actions kw) in
  match kw_resubmit_next_service kw, kw_resubmit_current_service kw with
  | Some next, _ => actions ++ [NXActionResubmitTable next] ++ scratch_resets
  | None, Some next => actions ++ [NXActionResubmitTable next]
  | None, None => actions
  end.

(** The add message for a given instruction list: every other field is
    taken from the call. *)
Definition add_flow_mod (datapath : Datapath) (table : Z)
    (match_ : MagmaMatch) (kw : flow_kwargs)
    (inst : list OFPInstruction) : OFPFlowMod :=
  {| fm_datapath := dp_id datapath;
     fm_command := None;
     fm_priority := Some (default MINIMUM_PRIORITY (kw_priority kw));
     fm_match := {| match_fields := ryu_match match_ |};
     fm_instructions := inst;
     fm_table_id := table;
     fm_cookie := Some (default 0 (kw_cookie kw));
     fm_idle_timeout := Some (default 0 (kw_idle_timeout kw));
     fm_hard_timeout := Some (default 0 (kw_hard_timeout kw));
     fm_out_group := None;
     fm_out_port := None;
     fm_kwargs := ∅ |}.

(** A single apply-actions instruction around [actions]. *)
Definition apply_actions (datapath : Datapath) (actions : list OFPAction)
  : list OFPInstruction :=
  [OFPInstructionActions (OFPIT_APPLY_ACTIONS (dp_ofproto datapath)) actions].

(** The keywords [add_flow] hands to [get_add_flow_msg]. *)
Definition resolved (kw : flow_kwargs) : flow_kwargs :=
  {| kw_actions := kw_actions kw;
     kw_instructions := kw_instructions kw;
     kw_priority := Some (default MINIMUM_PRIORITY (kw_priority kw));
     kw_cookie := Some (default 0 (kw_cookie kw));
     kw_idle_timeout := Some (default 0 (kw_idle_timeout kw));
     kw_hard_timeout := Some (default 0 (kw_hard_timeout kw));
     kw_resubmit_next_service := kw_resubmit_next_service kw;
     kw_resubmit_current_service := kw_resubmit_current_service kw |}.

(** The keywords of [kw] with the current-service target left out. *)
Definition without_current_service (kw : flow_kwargs) : flow_kwargs :=
  {| kw_actions := kw_actions kw;
     kw_instructions := kw_instructions kw;
     kw_priority := kw_priority kw;
     kw_cookie := kw_cookie kw;
     kw_idle_timeout := kw_idle_timeout kw;
     kw_hard_timeout := kw_hard_timeout kw;
     kw_resubmit_next_service := kw_resubmit_next_service kw;
     kw_resubmit_current_service := None |}.

(** The delete message for a given instruction list. *)
Definition delete_flow_mod (datapath : Datapath) (table : Z)
    (match_ : MagmaMatch) (inst : list OFPInstruction)
    (kwargs : gmap string Z) : OFPFlowMod :=
  {| fm_datapath := dp_id datapath;
     fm_command := Some (OFPFC_DELETE (dp_ofproto datapath));
     fm_priority := kwargs !! "priority";
     fm_match := {| match_fields := ryu_match match_ |};
     fm_instructions := inst;
     fm_table_id := table;
     fm_cookie := kwargs !! "cookie";
     fm_idle_timeout := kwargs !! "idle_timeout";
     fm_hard_timeout := kwargs !! "hard_timeout";
     fm_out_group := Some (OFPG_ANY (dp_ofproto datapath));
     fm_out_port := Some (OFPP_ANY (dp_ofproto datapath));
     fm_kwargs := foldr delete kwargs forwarded_keywords |}.

(** The channel after [n] more attempts on [msg] were refused. *)
Definition refused (n : nat) (msg : OFPFlowMod) (ch : channel) : channel :=
  {| ch_outcome := ch_outcome ch;
     ch_log := ch_log ch ++ replicate n (msg, false) |}.

(** The channel after one more attempt on [msg] was acknowledged. *)
Definition acknowledged (msg : OFPFlowMod) (ch : channel) : channel :=
  {| ch_outcome := ch_outcome ch;
     ch_log := ch_log ch ++ [(msg, true)] |}.

(** The next [n] attempts on the channel are all refused. *)
Definition refuses_next (n : nat) (ch : channel) : Prop :=
  ∀ i, (i < n)%nat → ch_outcome ch (length (ch_log ch) + i)%nat = false.

(** The keywords of [kw] with another action list. *)
Definition with_actions (kw : flow_kwargs)
    (actions : option (list OFPAction)) : flow_kwargs :=
  {| kw_actions := actions;
     kw_instructions := kw_instructions kw;
     kw_priority := kw_priority kw;
     kw_cookie := kw_cookie kw;
     kw_idle_timeout := kw_idle_timeout kw;
     kw_hard_timeout := kw_hard_timeout kw;
     kw_resubmit_next_service := kw_resubmit_next_service kw;
     kw_resubmit_current_service := kw_resubmit_current_service kw |}.

(** The keywords of [kw] with other instructions. *)
Definition with_instructions (kw : flow_kwargs)
    (instructions : option (list OFPInstruction)) : flow_kwargs :=
  {| kw_actions := kw_actions kw;
     kw_instructions := instructions;
     kw_priority := kw_priority kw;
     kw_cookie := kw_cookie kw;
     kw_idle_timeout := kw_idle_timeout kw;
     kw_hard_timeout := kw_hard_timeout kw;
     kw_resubmit_next_service := kw_resubmit_next_service kw;
     kw_resubmit_current_service := kw_resubmit_current_service kw |}.

(** The keywords of [kw] with other forwarding targets. *)
Definition with_forwarding (kw : flow_kwargs) (next current : option Z)
  : flow_kwargs :=
  {| kw_actions := kw_actions kw;
     kw_instructions := kw_instructions kw;
     kw_priority := kw_priority kw;
     kw_cookie := kw_cookie kw;
     kw_idle_timeout := kw_idle_timeout kw;
     kw_hard_timeout := kw_hard_timeout kw;
     kw_resubmit_next_service := next;
     kw_resubmit_current_service := current |}.

(** ** The two checks, read as propositions *)

Lemma existsb_is_resubmit (actions : list OFPAction) :
  existsb is_resubmit actions = true ↔ has_resubmit actions.
Proof.
  rewrite existsb_exists. unfold has_resubmit. split.
  - intros ([t | |] & Hin & Hres); try discriminate.
    exists t. by apply list_elem_of_In.
  - intros [t Hin]. exists (NXActionResubmitTable t).
    split; [by apply list_elem_of_In | done].
Qed.

Lemma existsb_is_scratch_reg_load (actions : list OFPAction) :
  existsb is_scratch_reg_load actions = true ↔ has_scratch_load actions.
Proof.
  rewrite existsb_exists. unfold has_scratch_load. split.
  - intros ([| dst value |] & Hin & Hload); try discriminate.
    exists dst, value. split; [by apply list_elem_of_In |].
    by apply bool_decide_eq_true in Hload.
  - intros (dst & value & Hin & Hreg).
    exists (NXActionRegLoad2 dst value).
    split; [by apply list_elem_of_In |].
    by apply bool_decide_eq_true.
Qed.

Lemma check_resubmit_ok (actions : list OFPAction) :
  ¬ has_resubmit actions → _check_resubmit_action actions = inr ().
Proof.
  intros Hno. unfold _check_resubmit_action.
  destruct (existsb is_resubmit actions) eqn:E; [| done].
  by apply existsb_is_resubmit in E.
Qed.

Lemma check_resubmit_fails (actions : list OFPAction) :
  has_resubmit actions →
  _check_resubmit_action actions = inl RawResubmitNotAllowed.
Proof.
  intros Hres. unfold _check_resubmit_action.
  by apply existsb_is_resubmit in Hres as ->.
Qed.

Lemma check_scratch_ok (actions : list OFPAction) :
  ¬ has_scratch_load actions →
  _check_scratch_reg_load (Some actions) = inr ().
Proof.
  intros Hno. unfold _check_scratch_reg_load.
  destruct (existsb is_scratch_reg_load actions) eqn:E; [| done].
  by apply existsb_is_scratch_reg_load in E.
Qed.

Lemma check_scratch_fails (actions : list OFPAction) :
  has_scratch_load actions →
  _check_scratch_reg_load (Some actions) = inl ScratchRegisterConflict.
Proof.
  intros Hload. unfold _check_scratch_reg_load.
  by apply existsb_is_scratch_reg_load in Hload as ->.
Qed.

Lemma scratch_resets_eq :
  (λ reg, NXActionRegLoad2 reg REG_ZERO_VAL) <$> SCRATCH_REGS = scratch_resets.
Proof. reflexivity. Qed.

(** What [__get_instructions_for_actions] returns for a list of actions
    that is present. *)
Lemma get_instructions_some (ofproto : Ofproto) (actions : list OFPAction)
    (instructions : option (list OFPInstruction)) :
  __get_instructions_for_actions ofproto (Some actions) instructions =
  match actions with
  | [] => default [] instructions
  | _ :: _ => [OFPInstructionActions (OFPIT_APPLY_ACTIONS ofproto) actions]
  end.
Proof.
  unfold __get_instructions_for_actions.
  destruct actions as [| a l]; simpl; [| done].
  by destruct instructions as [[| i l] |].
Qed.

(** The compilation, once both checks are decided: the only way out of
    [get_add_flow_msg] besides the two exceptions is the add message
    around the extended action list. *)
Lemma get_add_flow_msg_checked (datapath : Datapath) (table : Z)
    (match_ : MagmaMatch) (kw : flow_kwargs) :
  get_add_flow_msg datapath table match_ kw =
  (_check_resubmit_action (default [] (kw_actions kw));;
   match kw_resubmit_next_service kw with
   | Some _ => _check_scratch_reg_load (Some (default [] (kw_actions kw)))
   | None => mret ()
   end;;
   mret (add_flow_mod datapath table match_ kw
           (__get_instructions_for_actions (dp_ofproto datapath)
              (Some (extended_actions kw)) (kw_instructions kw)))).
Proof.
  unfold get_add_flow_msg, extended_actions.
  destruct (_check_resubmit_action _); [done |]. simpl.
  destruct (kw_resubmit_next_service kw) as [next |]; simpl.
  - destruct (_check_scratch_reg_load _); [done |]. simpl.
    by rewrite scratch_resets_eq, <- (assoc_L (++)).
  - by destruct (kw_resubmit_current_service kw).
Qed.

(** ** The retry loop of the dispatch layer *)

Lemma refused_0 (msg : OFPFlowMod) (ch : channel) : refused 0 msg ch = ch.
Proof. destruct ch. unfold refused. simpl. by rewrite (right_id_L [] (++)). Qed.

Lemma refused_S (n : nat) (msg : OFPFlowMod) (ch : channel) :
  refused n msg (refused 1 msg ch) = refused (S n) msg ch.
Proof. unfold refused. simpl. by rewrite <- (assoc_L (++)). Qed.

Lemma refuses_next_step (n : nat) (msg : OFPFlowMod) (ch : channel) :
  refuses_next (S n) ch →
  channel_send msg ch = (false, refused 1 msg ch) ∧
  refuses_next n (refused 1 msg ch).
Proof.
  intros Href. split.
  - unfold channel_send, refused.
    specialize (Href 0%nat). rewrite Nat.add_0_r in Href.
    by rewrite Href by lia.
  - intros i Hi. simpl. rewrite length_app. simpl.
    replace (length (ch_log ch) + 1 + i)%nat
      with (length (ch_log ch) + S i)%nat by lia.
    apply Href. lia.
Qed.

Lemma send_attempts_unfold (msg : OFPFlowMod) (retries made : nat)
    (ch : channel) :
  send_attempts msg retries made ch =
  let '(ok, ch') := channel_send msg ch in
  if ok then (inr (), ch')
  else match retries with
       | O => (inl (MagmaOFError (S made)), ch')
       | S retries' => send_attempts msg retries' (S made) ch'
       end.
Proof. by destruct retries. Qed.

(** Every attempt refused: the loop gives up after [retries + 1]
    attempts. *)
Lemma send_attempts_refused (msg : OFPFlowMod) (retries made : nat)
    (ch : channel) :
  refuses_next (S retries) ch →
  send_attempts msg retries made ch =
  (inl (MagmaOFError (made + retries + 1)), refused (S retries) msg ch).
Proof.
  revert made ch. induction retries as [| r IH]; intros made ch Href;
    destruct (refuses_next_step _ msg _ Href) as [Hsend Hnext];
    rewrite send_attempts_unfold, Hsend.
  - do 3 f_equal. lia.
  - rewrite (IH _ _ Hnext), refused_S. do 3 f_equal. lia.
Qed.

(** [k] attempts refused and the next one acknowledged, with [k] within
    the retry budget: the loop returns normally. *)
Lemma send_attempts_acknowledged (msg : OFPFlowMod) (k retries made : nat)
    (ch : channel) :
  (k ≤ retries)%nat →
  refuses_next k ch →
  ch_outcome ch (length (ch_log ch) + k)%nat = true →
  send_attempts msg retries made ch =
  (inr (), acknowledged msg (refused k msg ch)).
Proof.
  revert retries made ch. induction k as [| k IH];
    intros retries made ch Hle Href Hack.
  - rewrite refused_0. rewrite Nat.add_0_r in Hack.
    rewrite send_attempts_unfold. unfold channel_send. by rewrite Hack.
  - destruct retries as [| r]; [lia |].
    destruct (refuses_next_step _ msg _ Href) as [Hsend Hnext].
    rewrite send_attempts_unfold, Hsend.
    rewrite (IH r (S made) _); [by rewrite refused_S | lia | done |].
    simpl. rewrite length_app. simpl.
    by replace (length (ch_log ch) + 1 + k)%nat
      with (length (ch_log ch) + S k)%nat by lia.
Qed.

(** The dispatch layer raises nothing but [MagmaOFError]. *)
Lemma send_attempts_error (msg : OFPFlowMod) (retries made : nat)
    (ch ch' : channel) (e : exn) :
  send_attempts msg retries made ch = (inl e, ch') →
  ∃ attempts, e = MagmaOFError attempts.
Proof.
  revert made ch. induction retries as [| r IH]; intros made ch; simpl;
    destruct (ch_outcome ch (length (ch_log ch))); try discriminate.
  - intros [= <- _]. by eexists.
  - apply IH.
Qed.

Lemma filter_none {A : Type} (P : A → Prop) `{!∀ x, Decision (P x)}
    (l : list A) :
  Forall (λ x, ¬ P x) l → filter P l = [].
Proof.
  induction 1 as [| x l Hx _ IH]; [done |].
  by rewrite filter_cons_False.
Qed.

(** [delete_flow] when no keyword is repeated: the delete message goes
    to the dispatch layer as built. *)
Lemma delete_flow_dispatch (datapath : Datapath) (table : Z)
    (match_ : MagmaMatch) (actions : option (list OFPAction))
    (instructions : option (list OFPInstruction)) (retries : option nat)
    (kwargs : gmap string Z) (ch : channel) :
  (∀ k, k ∈ delete_flow_keywords → kwargs !! k = None) →
  delete_flow datapath table match_ actions instructions retries kwargs ch =
  send_msg datapath
    (delete_flow_mod datapath table match_
       (__get_instructions_for_actions (dp_ofproto datapath)
          actions instructions) kwargs)
    (default 3%nat retries) ch.
Proof.
  intros Hkw. unfold delete_flow.
  rewrite filter_none; [done |].
  apply Forall_forall. intros k Hk. rewrite (Hkw k Hk).
  by intros [? [=]].
Qed.

(** Resolving the defaults twice changes nothing: [add_flow] compiles
    the message [get_add_flow_msg] builds from the caller's keywords. *)
Lemma get_add_flow_msg_resolved (datapath : Datapath) (table : Z)
    (match_ : MagmaMatch) (kw : flow_kwargs) :
  get_add_flow_msg datapath table match_ (resolved kw) =
  get_add_flow_msg datapath table match_ kw.
Proof. by rewrite !get_add_flow_msg_checked. Qed.

Lemma add_flow_compiled (datapath : Datapath) (table : Z)
    (match_ : MagmaMatch) (retries : option nat) (kw : flow_kwargs)
    (ch : channel) :
  add_flow datapath table match_ retries kw ch =
  match get_add_flow_msg datapath table match_ kw with
  | inl e => (inl e, ch)
  | inr mod_ => send_msg datapath mod_ (default 3%nat retries) ch
  end.
Proof.
  unfold add_flow. fold (resolved kw).
  rewrite get_add_flow_msg_resolved.
  by destruct (get_add_flow_msg _ _ _ _).
Qed.

(** ** Forwarding to the next service *)

(** C1: with [resubmit_next_service = next] and a caller action list
    [A] that holds neither a raw forward-to-table action nor a scratch
    register load, compilation returns the add message whose only
    instruction applies [A ++ [forward to next] ++ resets]: the forward
    action first, then one zero load per entry of [SCRATCH_REGS] in
    its order (so as many loads as entries, a load for a register
    exactly when it is a scratch register, and no duplicate load when
    [SCRATCH_REGS] has no duplicate entry).  The result is a function
    of the inputs: any message returned for them is this one. *)
Theorem next_service_action_sequence (datapath : Datapath) (table : Z)
    (match_ : MagmaMatch) (kw : flow_kwargs) (A : list OFPAction)
    (next : Z) :
  kw_actions kw = Some A →
  kw_resubmit_next_service kw = Some next →
  ¬ has_resubmit A →
  ¬ has_scratch_load A →
  let resets := (λ reg, NXActionRegLoad2 reg 0) <$> SCRATCH_REGS in
  let compiled :=
    add_flow_mod datapath table match_ kw
      (apply_actions datapath
         (A ++ [NXActionResubmitTable next] ++ resets)) in
  get_add_flow_msg datapath table match_ kw = inr compiled ∧
  (∀ mod_, get_add_flow_msg datapath table match_ kw = inr mod_ →
           mod_ = compiled) ∧
  length resets = length SCRATCH_REGS ∧
  (∀ reg, NXActionRegLoad2 reg 0 ∈ resets ↔ reg ∈ SCRATCH_REGS) ∧
  (NoDup SCRATCH_REGS → NoDup resets).
Proof.
  intros HA Hnext Hres Hload resets compiled.
  assert (Hget : get_add_flow_msg datapath table match_ kw = inr compiled).
  { rewrite get_add_flow_msg_checked. unfold extended_actions.
    rewrite HA, Hnext. simpl.
    rewrite (check_resubmit_ok _ Hres). simpl.
    rewrite (check_scratch_ok _ Hload). simpl.
    rewrite get_instructions_some.
    by destruct A. }
  split; [done |]. split; [| split; [| split]].
  - intros mod_ Hmod. congruence.
  - apply length_fmap.
  - intros reg. subst resets. rewrite list_elem_of_fmap. split.
    + by intros (r & [= ->] & Hin).
    + intros Hin. by exists reg.
  - intros Hnodup. subst resets.
    assert (Inj (=) (=) (λ reg, NXActionRegLoad2 reg 0))
      by (intros r1 r2 [= ->]; done).
    by apply (NoDup_fmap_2 _).
Qed.

(** ** The raw resubmit check *)

(** C2: compilation fails with [RawResubmitNotAllowed] exactly when the
    caller's own action list holds a raw forward-to-table action,
    whatever the other keywords (the forwarding mode included); the
    forward action the compiler appends is never the cause.  [add_flow]
    then raises the same error without a delivery attempt. *)
Theorem raw_resubmit_rejected (datapath : Datapath) (table : Z)
    (match_ : MagmaMatch) (kw : flow_kwargs) :
  (has_resubmit (default [] (kw_actions kw)) →
   get_add_flow_msg datapath table match_ kw = inl RawResubmitNotAllowed ∧
   ∀ retries ch,
     add_flow datapath table match_ retries kw ch =
     (inl RawResubmitNotAllowed, ch)) ∧
  (¬ has_resubmit (default [] (kw_actions kw)) →
   get_add_flow_msg datapath table match_ kw ≠ inl RawResubmitNotAllowed).
Proof.
  split.
  - intros Hres.
    assert (Hget : ∀ kw', kw_actions kw' = kw_actions kw →
              get_add_flow_msg datapath table match_ kw' =
              inl RawResubmitNotAllowed).
    { intros kw' Hkw. unfold get_add_flow_msg. rewrite Hkw.
      by rewrite (check_resubmit_fails _ Hres). }
    split; [by apply Hget |].
    intros retries ch. unfold add_flow.
    by rewrite Hget.
  - intros Hres. rewrite get_add_flow_msg_checked.
    rewrite (check_resubmit_ok _ Hres). simpl.
    destruct (kw_resubmit_next_service kw); [| done].
    unfold _check_scratch_reg_load.
    by destruct (existsb _ _).
Qed.

(** ** The scratch register check *)

(** C3, as amended: compilation fails with [ScratchRegisterConflict]
    exactly when a next-service target is given and the caller's action
    list holds a scratch register load but no raw forward-to-table
    action.  In particular a scratch register load never causes this
    failure when no next-service target is given. *)
Theorem scratch_register_conflict (datapath : Datapath) (table : Z)
    (match_ : MagmaMatch) (kw : flow_kwargs) :
  get_add_flow_msg datapath table match_ kw = inl ScratchRegisterConflict ↔
  is_Some (kw_resubmit_next_service kw) ∧
  ¬ has_resubmit (default [] (kw_actions kw)) ∧
  has_scratch_load (default [] (kw_actions kw)).
Proof.
  rewrite get_add_flow_msg_checked.
  unfold _check_resubmit_action, _check_scratch_reg_load.
  rewrite <- existsb_is_resubmit, <- existsb_is_scratch_reg_load.
  destruct (existsb is_resubmit _); simpl.
  - split; [discriminate |]. intros (_ & Hno & _). by destruct Hno.
  - destruct (kw_resubmit_next_service kw) as [next |]; simpl.
    + destruct (existsb is_scratch_reg_load _); simpl.
      * split; [| done]. intros _. split; [by eexists | done].
      * split; [discriminate |]. by intros (_ & _ & [=]).
    + split; [discriminate |]. by intros [[? [=]] _].
Qed.

(** ** Forwarding within the current service *)

(** C4: with no next-service target, [resubmit_current_service = next]
    and a caller action list [A] without a raw forward-to-table action,
    compilation returns the add message whose only instruction applies
    [A ++ [forward to next]]: no register reset is appended, whatever
    [SCRATCH_REGS] holds and whether or not [A] loads one of them. *)
Theorem current_service_action_sequence (datapath : Datapath) (table : Z)
    (match_ : MagmaMatch) (kw : flow_kwargs) (A : list OFPAction)
    (next : Z) :
  kw_actions kw = Some A →
  kw_resubmit_next_service kw = None →
  kw_resubmit_current_service kw = Some next →
  ¬ has_resubmit A →
  get_add_flow_msg datapath table match_ kw =
  inr (add_flow_mod datapath table match_ kw
         (apply_actions datapath (A ++ [NXActionResubmitTable next]))).
Proof.
  intros HA Hnext Hcur Hres.
  rewrite get_add_flow_msg_checked. unfold extended_actions.
  rewrite HA, Hnext, Hcur. simpl.
  rewrite (check_resubmit_ok _ Hres). simpl.
  rewrite get_instructions_some.
  by destruct A.
Qed.

(** ** The instruction list *)

(** C5: whenever compilation returns a message, its instruction list
    is the single apply-actions instruction around the extended action
    list if that list is not empty (the caller's instructions are then
    dropped), and otherwise the caller's instructions as given, or the
    empty list when there are none.  Compilation does return that
    message once the two checks pass; for no actions, no instructions
    and no forwarding the instruction list is empty. *)
Theorem instruction_sequence (datapath : Datapath) (table : Z)
    (match_ : MagmaMatch) (kw : flow_kwargs) :
  let built :=
    match extended_actions kw with
    | [] => match kw_instructions kw with
            | Some instructions => instructions
            | None => []
            end
    | _ :: _ => apply_actions datapath (extended_actions kw)
    end in
  (∀ mod_, get_add_flow_msg datapath table match_ kw = inr mod_ →
           fm_instructions mod_ = built) ∧
  (¬ has_resubmit (default [] (kw_actions kw)) →
   (is_Some (kw_resubmit_next_service kw) →
    ¬ has_scratch_load (default [] (kw_actions kw))) →
   get_add_flow_msg datapath table match_ kw =
   inr (add_flow_mod datapath table match_ kw built)) ∧
  (default [] (kw_actions kw) = [] →
   kw_instructions kw = None →
   kw_resubmit_next_service kw = None →
   kw_resubmit_current_service kw = None →
   get_add_flow_msg datapath table match_ kw =
   inr (add_flow_mod datapath table match_ kw [])).
Proof.
  intros built.
  assert (Hbuilt : __get_instructions_for_actions (dp_ofproto datapath)
                     (Some (extended_actions kw)) (kw_instructions kw) =
                   built).
  { rewrite get_instructions_some. subst built.
    destruct (extended_actions kw); [| done].
    by destruct (kw_instructions kw). }
  rewrite get_add_flow_msg_checked, Hbuilt.
  split; [| split].
  - intros mod_.
    destruct (_check_resubmit_action _); [discriminate |]. simpl.
    destruct (match kw_resubmit_next_service kw with
              | Some _ => _
              | None => _
              end); [discriminate |]. simpl.
    by intros [= <-].
  - intros Hres Hload. rewrite (check_resubmit_ok _ Hres). simpl.
    destruct (kw_resubmit_next_service kw); [| done].
    by rewrite check_scratch_ok by (apply Hload; by eexists).
  - intros HA Hinst Hnext Hcur. subst built. unfold extended_actions.
    by rewrite HA, Hinst, Hnext, Hcur.
Qed.

(** ** Deleting every flow of a table *)

(** C6: [delete_all_flows_from_table] is [delete_flow] on the same
    table with the empty match and neither actions nor instructions,
    and what it hands to the dispatch layer, with the retry count it
    was given (3 when none was), is the delete command for that table
    with no constrained match field, [OFPG_ANY], [OFPP_ANY] and an
    empty instruction list. *)
Theorem delete_all_flows_message (datapath : Datapath) (table : Z)
    (retries : option nat) :
  delete_all_flows_from_table datapath table retries =
  delete_flow datapath table MagmaMatch_empty None None retries ∅ ∧
  ∀ ch,
    delete_all_flows_from_table datapath table retries ch =
    send_msg datapath
      {| fm_datapath := dp_id datapath;
         fm_command := Some (OFPFC_DELETE (dp_ofproto datapath));
         fm_priority := None;
         fm_match := {| match_fields := ∅ |};
         fm_instructions := [];
         fm_table_id := table;
         fm_cookie := None;
         fm_idle_timeout := None;
         fm_hard_timeout := None;
         fm_out_group := Some (OFPG_ANY (dp_ofproto datapath));
         fm_out_port := Some (OFPP_ANY (dp_ofproto datapath));
         fm_kwargs := ∅ |}
      (default 3%nat retries) ch.
Proof.
  split; [done |]. intros ch.
  unfold delete_all_flows_from_table.
  by rewrite delete_flow_dispatch.
Qed.

(** ** Retries *)

(** C7: let the add message compile.  [add_flow] with retry budget
    [r] hands the message to the dispatch layer with that very count.
    If the channel refuses the next [r] attempts and acknowledges the
    one after, [add_flow] returns normally after [r + 1] attempts.  If
    the channel refuses the next [r + 1] attempts, [add_flow] fails
    with the dispatch error after exactly [r + 1] attempts, hence after
    at least one retry when [r > 0].  [delete_flow] passes its retry
    count on unchanged as well. *)
Theorem add_flow_retry_budget (datapath : Datapath) (table : Z)
    (match_ : MagmaMatch) (kw : flow_kwargs) (r : nat)
    (mod_ : OFPFlowMod) (ch : channel) :
  get_add_flow_msg datapath table match_ kw = inr mod_ →
  let run := add_flow datapath table match_ (Some r) kw ch in
  run = send_msg datapath mod_ r ch ∧
  (refuses_next r ch →
   ch_outcome ch (length (ch_log ch) + r)%nat = true →
   run = (inr (), acknowledged mod_ (refused r mod_ ch)) ∧
   length (ch_log run.2) = (length (ch_log ch) + (r + 1))%nat) ∧
  (refuses_next (r + 1) ch →
   run = (inl (MagmaOFError (r + 1)), refused (r + 1) mod_ ch) ∧
   length (ch_log run.2) = (length (ch_log ch) + (r + 1))%nat ∧
   ((0 < r)%nat → (length (ch_log ch) + 2 ≤ length (ch_log run.2))%nat)) ∧
  (∀ table' match' actions instructions kwargs,
     (∀ k, k ∈ delete_flow_keywords → kwargs !! k = None) →
     delete_flow datapath table' match' actions instructions (Some r)
                 kwargs ch =
     send_msg datapath
       (delete_flow_mod datapath table' match'
          (__get_instructions_for_actions (dp_ofproto datapath)
             actions instructions) kwargs) r ch).
Proof.
  intros Hget run.
  assert (Hrun : run = send_msg datapath mod_ r ch).
  { subst run. by rewrite add_flow_compiled, Hget. }
  split; [done |]. split; [| split].
  - intros Href Hack. rewrite Hrun. unfold send_msg.
    rewrite (send_attempts_acknowledged _ r) by done.
    split; [done |]. simpl.
    rewrite !length_app, length_replicate. simpl. lia.
  - intros Href. rewrite Hrun. unfold send_msg.
    replace (r + 1)%nat with (S r) in * by lia.
    rewrite send_attempts_refused by done.
    split; [do 3 f_equal; lia |].
    cbn [snd refused ch_log].
    rewrite length_app, length_replicate. lia.
  - intros table' match' actions instructions kwargs Hkw.
    by rewrite delete_flow_dispatch.
Qed.

(** ** The default priority *)

(** C8: the module declares [DEFAULT_PRIORITY = 10], next to the bounds
    [MINIMUM_PRIORITY = 0] and [MAXIMUM_PRIORITY = 65535].  When the
    caller gives no priority, every call whose actions pass the two
    checks compiles to a message whose priority is [MINIMUM_PRIORITY],
    not [DEFAULT_PRIORITY], and [add_flow] hands that message to the
    dispatch layer; no message is ever returned with another priority,
    and a call whose actions fail a check raises the compile error
    without a delivery attempt. *)
Theorem priority_defaults_to_minimum (datapath : Datapath) (table : Z)
    (match_ : MagmaMatch) (retries : option nat) (kw : flow_kwargs)
    (ch : channel) :
  kw_priority kw = None →
  (MINIMUM_PRIORITY = 0 ∧ DEFAULT_PRIORITY = 10 ∧
   MAXIMUM_PRIORITY = 65535) ∧
  (¬ has_resubmit (default [] (kw_actions kw)) →
   (is_Some (kw_resubmit_next_service kw) →
    ¬ has_scratch_load (default [] (kw_actions kw))) →
   ∃ mod_, get_add_flow_msg datapath table match_ kw = inr mod_ ∧
           fm_priority mod_ = Some MINIMUM_PRIORITY ∧
           fm_priority mod_ = Some 0 ∧
           fm_priority mod_ ≠ Some DEFAULT_PRIORITY ∧
           add_flow datapath table match_ retries kw ch =
           send_msg datapath mod_ (default 3%nat retries) ch) ∧
  (∀ mod_, get_add_flow_msg datapath table match_ kw = inr mod_ →
           fm_priority mod_ = Some MINIMUM_PRIORITY) ∧
  (∀ e, get_add_flow_msg datapath table match_ kw = inl e →
        add_flow datapath table match_ retries kw ch = (inl e, ch)).
Proof.
  intros Hprio.
  assert (Hmin : ∀ mod_,
            get_add_flow_msg datapath table match_ kw = inr mod_ →
            fm_priority mod_ = Some MINIMUM_PRIORITY).
  { intros mod_. rewrite get_add_flow_msg_checked.
    destruct (_check_resubmit_action _); [discriminate |]. simpl.
    destruct (match kw_resubmit_next_service kw with
              | Some _ => _
              | None => _
              end); [discriminate |]. simpl.
    intros [= <-]. simpl. by rewrite Hprio. }
  split; [done |]. split; [| split; [done |]].
  - intros Hres Hload.
    assert (Hget : ∃ mod_,
              get_add_flow_msg datapath table match_ kw = inr mod_).
    { rewrite get_add_flow_msg_checked.
      rewrite (check_resubmit_ok _ Hres). simpl.
      destruct (kw_resubmit_next_service kw) as [next |]; simpl.
      - rewrite check_scratch_ok by (apply Hload; by eexists).
        by eexists.
      - by eexists. }
    destruct Hget as [mod_ Hget]. exists mod_.
    rewrite add_flow_compiled, Hget, (Hmin mod_ Hget).
    repeat split; done.
  - intros e Hget. by rewrite add_flow_compiled, Hget.
Qed.

(** ** Both forwarding targets at once *)

(** C9: when both a next-service and a current-service target are
    given, compilation behaves as if only the next-service target were:
    the scratch register check runs, and for an action list that
    passes both checks the message applies the caller's actions, the
    forward to the next-service table and the register resets.  The
    current-service target has no effect and no error reports it. *)
Theorem next_service_takes_precedence (datapath : Datapath) (table : Z)
    (match_ : MagmaMatch) (kw : flow_kwargs) (next current : Z) :
  kw_resubmit_next_service kw = Some next →
  kw_resubmit_current_service kw = Some current →
  let A := default [] (kw_actions kw) in
  get_add_flow_msg datapath table match_ kw =
  get_add_flow_msg datapath table match_ (without_current_service kw) ∧
  (¬ has_resubmit A → has_scratch_load A →
   get_add_flow_msg datapath table match_ kw =
   inl ScratchRegisterConflict) ∧
  (¬ has_resubmit A → ¬ has_scratch_load A →
   get_add_flow_msg datapath table match_ kw =
   inr (add_flow_mod datapath table match_ kw
          (apply_actions datapath
             (A ++ [NXActionResubmitTable next] ++ scratch_resets)))).
Proof.
  intros Hnext Hcur A. subst A. split; [| split].
  - rewrite !get_add_flow_msg_checked. unfold extended_actions. simpl.
    by rewrite Hnext.
  - intros Hres Hload. rewrite get_add_flow_msg_checked, Hnext.
    rewrite (check_resubmit_ok _ Hres). simpl.
    by rewrite (check_scratch_fails _ Hload).
  - intros Hres Hload. rewrite get_add_flow_msg_checked.
    unfold extended_actions. rewrite Hnext.
    rewrite (check_resubmit_ok _ Hres). simpl.
    rewrite (check_scratch_ok _ Hload). simpl.
    rewrite get_instructions_some.
    by destruct (default [] (kw_actions kw)).
Qed.

(** ** Deletion is not validated *)

(** C10: [delete_flow] never fails with [RawResubmitNotAllowed] or
    [ScratchRegisterConflict], whatever its action list holds, and
    neither does [delete_all_flows_from_table].  When no keyword is
    repeated the delete message goes to the dispatch layer with the
    instructions [__get_instructions_for_actions] builds, which for a
    non-empty action list is the apply-actions instruction around that
    very list. *)
Theorem delete_flow_unchecked (datapath : Datapath) (table : Z)
    (match_ : MagmaMatch) (actions : option (list OFPAction))
    (instructions : option (list OFPInstruction)) (retries : option nat)
    (kwargs : gmap string Z) (ch : channel) :
  let run :=
    delete_flow datapath table match_ actions instructions retries
                kwargs ch in
  (run.1 ≠ inl RawResubmitNotAllowed ∧
   run.1 ≠ inl ScratchRegisterConflict) ∧
  ((delete_all_flows_from_table datapath table retries ch).1 ≠
     inl RawResubmitNotAllowed ∧
   (delete_all_flows_from_table datapath table retries ch).1 ≠
     inl ScratchRegisterConflict) ∧
  ((∀ k, k ∈ delete_flow_keywords → kwargs !! k = None) →
   run =
   send_msg datapath
     (delete_flow_mod datapath table match_
        (__get_instructions_for_actions (dp_ofproto datapath)
           actions instructions) kwargs)
     (default 3%nat retries) ch) ∧
  (∀ a l, actions = Some (a :: l) →
     __get_instructions_for_actions (dp_ofproto datapath)
       actions instructions = apply_actions datapath (a :: l)).
Proof.
  assert (Hnot : ∀ match' actions' instructions' kwargs' msg,
            (delete_flow datapath table match' actions' instructions'
               retries kwargs' ch).1 ≠ inl (PyException msg)).
  { intros match' actions' instructions' kwargs' msg.
    unfold delete_flow, mbind, dispatch_bind, lift_result.
    destruct (filter _ delete_flow_keywords) as [| k ?]; simpl.
    - unfold send_msg.
      destruct (send_attempts _ _ _ _) as [[e |] ch'] eqn:E; [| done].
      apply send_attempts_error in E as [n ->]. done.
    - done. }
  intros run. split; [| split; [| split]].
  - split; apply Hnot.
  - split; apply Hnot.
  - apply delete_flow_dispatch.
  - by intros a l ->.
Qed.

(** ** Further properties of the compilation *)

(** The three ways out of [get_add_flow_msg], by the two tests. *)
Lemma get_add_flow_msg_cases (datapath : Datapath) (table : Z)
    (match_ : MagmaMatch) (kw : flow_kwargs) :
  get_add_flow_msg datapath table match_ kw =
  if existsb is_resubmit (default [] (kw_actions kw)) then
    inl RawResubmitNotAllowed
  else if match kw_resubmit_next_service kw with
          | Some _ => existsb is_scratch_reg_load (default [] (kw_actions kw))
          | None => false
          end then
    inl ScratchRegisterConflict
  else
    inr (add_flow_mod datapath table match_ kw
           (__get_instructions_for_actions (dp_ofproto datapath)
              (Some (extended_actions kw)) (kw_instructions kw))).
Proof.
  rewrite get_add_flow_msg_checked.
  unfold _check_resubmit_action, _check_scratch_reg_load.
  destruct (existsb is_resubmit _); [done |]. simpl.
  destruct (kw_resubmit_next_service kw); [| done].
  by destruct (existsb is_scratch_reg_load _).
Qed.

Lemma existsb_Permutation {A : Type} (f : A → bool) (l1 l2 : list A) :
  l1 ≡ₚ l2 → existsb f l1 = existsb f l2.
Proof.
  induction 1 as [| x l1 l2 _ IH | x y l | l1 l2 l3 _ IH1 _ IH2]; simpl.
  - done.
  - by rewrite IH.
  - by destruct (f x), (f y).
  - congruence.
Qed.

Lemma extended_actions_forwarding (kw : flow_kwargs) :
  is_Some (kw_resubmit_next_service kw) ∨
  is_Some (kw_resubmit_current_service kw) →
  has_resubmit (extended_actions kw) ∧ extended_actions kw ≠ [].
Proof.
  unfold extended_actions, has_resubmit.
  destruct (kw_resubmit_next_service kw) as [next |].
  - intros _. split.
    + exists next. rewrite elem_of_app. right. apply list_elem_of_here.
    + by destruct (default [] (kw_actions kw)).
  - destruct (kw_resubmit_current_service kw) as [current |].
    + intros _. split.
      * exists current. rewrite elem_of_app. right. apply list_elem_of_here.
      * by destruct (default [] (kw_actions kw)).
    + by intros [[? [=]] | [? [=]]].
Qed.

(** X1: every call whose actions pass the two checks compiles,
    whatever its priority (any integer, also one below
    [MINIMUM_PRIORITY] or above [MAXIMUM_PRIORITY]: the priority is not
    checked), and a compiled add message carries the table, the match
    fields, the priority, the cookie and the two timeouts of the call
    unchanged (an omitted priority, cookie or timeout being 0),
    whatever the actions and the forwarding mode.  The command and the
    output group and port are left to the constructor. *)
Theorem add_message_fields (datapath : Datapath) (table : Z)
    (match_ : MagmaMatch) (kw : flow_kwargs) :
  let carries (mod_ : OFPFlowMod) : Prop :=
    fm_datapath mod_ = dp_id datapath ∧
    fm_table_id mod_ = table ∧
    match_fields (fm_match mod_) = ryu_match match_ ∧
    fm_priority mod_ = Some (default 0 (kw_priority kw)) ∧
    fm_cookie mod_ = Some (default 0 (kw_cookie kw)) ∧
    fm_idle_timeout mod_ = Some (default 0 (kw_idle_timeout kw)) ∧
    fm_hard_timeout mod_ = Some (default 0 (kw_hard_timeout kw)) ∧
    fm_command mod_ = None ∧ fm_out_group mod_ = None ∧
    fm_out_port mod_ = None ∧ fm_kwargs mod_ = ∅ in
  (¬ has_resubmit (default [] (kw_actions kw)) →
   (is_Some (kw_resubmit_next_service kw) →
    ¬ has_scratch_load (default [] (kw_actions kw))) →
   ∃ mod_, get_add_flow_msg datapath table match_ kw = inr mod_ ∧
           carries mod_ ∧
           (∀ p, kw_priority kw = Some p → fm_priority mod_ = Some p)) ∧
  (∀ mod_, get_add_flow_msg datapath table match_ kw = inr mod_ →
           carries mod_).
Proof.
  intros carries.
  assert (Hcarries : ∀ mod_,
            get_add_flow_msg datapath table match_ kw = inr mod_ →
            carries mod_).
  { intros mod_. rewrite get_add_flow_msg_cases.
    destruct (existsb is_resubmit _); [discriminate |].
    destruct (match kw_resubmit_next_service kw with
              | Some _ => _
              | None => _
              end); [discriminate |].
    intros [= <-]. repeat split. }
  split; [| done].
  intros Hres Hload.
  assert (Hget : ∃ mod_,
            get_add_flow_msg datapath table match_ kw = inr mod_).
  { rewrite get_add_flow_msg_cases.
    apply (not_iff_compat (existsb_is_resubmit _)) in Hres.
    apply not_true_is_false in Hres. rewrite Hres.
    destruct (kw_resubmit_next_service kw) as [next |]; [| by eexists].
    assert (Hno : ¬ has_scratch_load (default [] (kw_actions kw)))
      by (apply Hload; by eexists).
    apply (not_iff_compat (existsb_is_scratch_reg_load _)) in Hno.
    apply not_true_is_false in Hno. rewrite Hno. by eexists. }
  destruct Hget as [mod_ Hget]. exists mod_.
  split; [done |]. split; [by apply Hcarries |].
  intros p Hp. destruct (Hcarries mod_ Hget) as (_ & _ & _ & Hprio & _).
  by rewrite Hprio, Hp.
Qed.

(** X2: compilation returns a message exactly when the caller's action
    list holds no raw forward-to-table action and, if a next-service
    target is given, no scratch register load. *)
Theorem get_add_flow_msg_succeeds_iff (datapath : Datapath) (table : Z)
    (match_ : MagmaMatch) (kw : flow_kwargs) :
  (∃ mod_, get_add_flow_msg datapath table match_ kw = inr mod_) ↔
  ¬ has_resubmit (default [] (kw_actions kw)) ∧
  (is_Some (kw_resubmit_next_service kw) →
   ¬ has_scratch_load (default [] (kw_actions kw))).
Proof.
  rewrite get_add_flow_msg_cases.
  rewrite <- existsb_is_resubmit, <- existsb_is_scratch_reg_load.
  destruct (existsb is_resubmit _).
  - split; [by intros [? [=]] |]. by intros [Hno _].
  - destruct (kw_resubmit_next_service kw) as [next |].
    + destruct (existsb is_scratch_reg_load _).
      * split; [by intros [? [=]] |].
        intros [_ Hno]. destruct Hno; [by eexists | done].
      * split; [| by eexists]. intros _. split; [done |]. by intros _.
    + split; [| by eexists]. intros _. split; [done |]. by intros [? [=]].
Qed.

(** X3: the only exceptions [get_add_flow_msg] raises are the two
    structural ones, each for its own cause. *)
Theorem get_add_flow_msg_errors (datapath : Datapath) (table : Z)
    (match_ : MagmaMatch) (kw : flow_kwargs) (e : exn) :
  get_add_flow_msg datapath table match_ kw = inl e →
  (e = RawResubmitNotAllowed ∧ has_resubmit (default [] (kw_actions kw))) ∨
  (e = ScratchRegisterConflict ∧
   is_Some (kw_resubmit_next_service kw) ∧
   has_scratch_load (default [] (kw_actions kw))).
Proof.
  rewrite get_add_flow_msg_cases.
  rewrite <- existsb_is_resubmit, <- existsb_is_scratch_reg_load.
  destruct (existsb is_resubmit _).
  - intros [= <-]. by left.
  - destruct (kw_resubmit_next_service kw) as [next |]; [| discriminate].
    destruct (existsb is_scratch_reg_load _); [| discriminate].
    intros [= <-]. right. split; [done |]. split; [by eexists | done].
Qed.

(** X4: the two checks do not depend on the order of the actions: a
    call fails with an exception exactly when the call with the same
    keywords and a permutation of the action list fails with it. *)
Theorem validation_ignores_order (datapath : Datapath) (table : Z)
    (match_ : MagmaMatch) (kw : flow_kwargs) (A B : list OFPAction)
    (e : exn) :
  A ≡ₚ B →
  get_add_flow_msg datapath table match_ (with_actions kw (Some A)) = inl e ↔
  get_add_flow_msg datapath table match_ (with_actions kw (Some B)) = inl e.
Proof.
  intros Hperm. rewrite !get_add_flow_msg_cases. simpl.
  rewrite (existsb_Permutation is_resubmit _ _ Hperm).
  rewrite (existsb_Permutation is_scratch_reg_load _ _ Hperm).
  destruct (existsb is_resubmit B); [done |].
  destruct (match kw_resubmit_next_service kw with
            | Some _ => _
            | None => _
            end); [done |].
  split; discriminate.
Qed.

(** X5: the checks look at one action at a time: with the other
    keywords fixed, the concatenation of two action lists compiles
    exactly when each of the two lists does. *)
Theorem validation_of_concatenation (datapath : Datapath) (table : Z)
    (match_ : MagmaMatch) (kw : flow_kwargs) (A B : list OFPAction) :
  (∃ mod_, get_add_flow_msg datapath table match_
             (with_actions kw (Some (A ++ B))) = inr mod_) ↔
  (∃ mod_, get_add_flow_msg datapath table match_
             (with_actions kw (Some A)) = inr mod_) ∧
  (∃ mod_, get_add_flow_msg datapath table match_
             (with_actions kw (Some B)) = inr mod_).
Proof.
  rewrite !get_add_flow_msg_cases. simpl. rewrite !existsb_app.
  destruct (existsb is_resubmit A), (existsb is_resubmit B); simpl;
    try (split; [by intros [? [=]] | by intros [[? [=]] [? ?]]
                 || by intros [[? ?] [? [=]]]]).
  destruct (kw_resubmit_next_service kw) as [next |].
  - destruct (existsb is_scratch_reg_load A),
      (existsb is_scratch_reg_load B); simpl;
      try (split; [by intros [? [=]] | by intros [[? [=]] [? ?]]
                   || by intros [[? ?] [? [=]]]]).
    split; [intros _; split; by eexists | intros _; by eexists].
  - split; [intros _; split; by eexists | intros _; by eexists].
Qed.

(** X6: the caller's instructions reach the add message only when there
    is neither an action nor a forwarding target: as soon as a
    forwarding target is given or the action list is not empty, the
    result is the same for any instructions. *)
Theorem instructions_ignored (datapath : Datapath) (table : Z)
    (match_ : MagmaMatch) (kw : flow_kwargs)
    (instructions : option (list OFPInstruction)) :
  is_Some (kw_resubmit_next_service kw) ∨
  is_Some (kw_resubmit_current_service kw) ∨
  default [] (kw_actions kw) ≠ [] →
  get_add_flow_msg datapath table match_ (with_instructions kw instructions) =
  get_add_flow_msg datapath table match_ kw.
Proof.
  intros Hsome. rewrite !get_add_flow_msg_cases. simpl.
  assert (Hext : extended_actions kw ≠ []).
  { destruct Hsome as [H | [H | H]].
    - apply extended_actions_forwarding. by left.
    - apply extended_actions_forwarding. by right.
    - unfold extended_actions.
      destruct (default [] (kw_actions kw)); [done |].
      by destruct (kw_resubmit_next_service kw),
           (kw_resubmit_current_service kw). }
  change (extended_actions (with_instructions kw instructions))
    with (extended_actions kw).
  rewrite !get_instructions_some.
  by destruct (extended_actions kw).
Qed.

(** X7: the actions of a message compiled with a forwarding target are
    not accepted back as input: a call whose action list is the one the
    message applies fails with [RawResubmitNotAllowed]. *)
Theorem compiled_actions_rejected (datapath : Datapath) (table : Z)
    (match_ : MagmaMatch) (kw : flow_kwargs) (mod_ : OFPFlowMod) :
  get_add_flow_msg datapath table match_ kw = inr mod_ →
  is_Some (kw_resubmit_next_service kw) ∨
  is_Some (kw_resubmit_current_service kw) →
  ∃ actions,
    fm_instructions mod_ = apply_actions datapath actions ∧
    ∀ datapath' table' match' kw',
      kw_actions kw' = Some actions →
      get_add_flow_msg datapath' table' match' kw' =
      inl RawResubmitNotAllowed.
Proof.
  intros Hget Hfwd.
  destruct (extended_actions_forwarding kw Hfwd) as [Hres Hne].
  exists (extended_actions kw). split.
  - rewrite get_add_flow_msg_cases in Hget.
    destruct (existsb is_resubmit _); [discriminate |].
    destruct (match kw_resubmit_next_service kw with
              | Some _ => _
              | None => _
              end); [discriminate |].
    injection Hget as <-. simpl. rewrite get_instructions_some.
    by destruct (extended_actions kw).
  - intros datapath' table' match' kw' Hkw'.
    unfold get_add_flow_msg. rewrite Hkw'. simpl.
    by rewrite (check_resubmit_fails _ Hres).
Qed.

(** X8: [add_flow] compiles with the keywords of its caller, its own
    defaults agreeing with those of [get_add_flow_msg]: when the
    compilation raises, [add_flow] raises the same exception and the
    channel sees no delivery attempt; otherwise the compiled message
    goes to [send_msg] with the retry count (3 when omitted). *)
Theorem add_flow_dispatches_compiled (datapath : Datapath) (table : Z)
    (match_ : MagmaMatch) (retries : option nat) (kw : flow_kwargs)
    (ch : channel) :
  (∀ e, get_add_flow_msg datapath table match_ kw = inl e →
        add_flow datapath table match_ retries kw ch = (inl e, ch)) ∧
  (∀ mod_, get_add_flow_msg datapath table match_ kw = inr mod_ →
           add_flow datapath table match_ retries kw ch =
           send_msg datapath mod_ (default 3%nat retries) ch).
Proof.
  rewrite add_flow_compiled.
  split; [intros e Hget | intros mod_ Hget]; by rewrite Hget.
Qed.

(** X13: a compiled add message has an empty instruction list (a rule
    that does nothing with the packet) exactly when the call gives no
    action, no instruction and no forwarding target, [None] and the
    empty list counting alike. *)
Theorem add_message_without_instructions (datapath : Datapath) (table : Z)
    (match_ : MagmaMatch) (kw : flow_kwargs) (mod_ : OFPFlowMod) :
  get_add_flow_msg datapath table match_ kw = inr mod_ →
  fm_instructions mod_ = [] ↔
  default [] (kw_actions kw) = [] ∧
  default [] (kw_instructions kw) = [] ∧
  kw_resubmit_next_service kw = None ∧
  kw_resubmit_current_service kw = None.
Proof.
  rewrite get_add_flow_msg_cases.
  destruct (existsb is_resubmit _); [discriminate |].
  destruct (match kw_resubmit_next_service kw with
            | Some _ => _
            | None => _
            end); [discriminate |].
  intros [= <-]. simpl. rewrite get_instructions_some.
  unfold extended_actions.
  destruct (kw_resubmit_next_service kw) as [next |].
  - destruct (default [] (kw_actions kw)); simpl; split;
      (discriminate || by intros (_ & _ & [=] & _)).
  - destruct (kw_resubmit_current_service kw) as [current |].
    + destruct (default [] (kw_actions kw)); simpl; split;
        (discriminate || by intros (_ & _ & _ & [=])).
    + destruct (default [] (kw_actions kw)); simpl.
      * split; [by intros -> | by intros (_ & -> & _)].
      * split; [discriminate | by intros ([=] & _)].
Qed.

(** ** Further properties of deletion *)

(** X9: in [delete_flow] a non-empty action list takes precedence: the
    instructions given beside it have no effect on the outcome. *)
Theorem delete_flow_actions_take_precedence (datapath : Datapath) (table : Z)
    (match_ : MagmaMatch) (a : OFPAction) (l : list OFPAction)
    (instructions instructions' : option (list OFPInstruction))
    (retries : option nat) (kwargs : gmap string Z) (ch : channel) :
  delete_flow datapath table match_ (Some (a :: l)) instructions retries
              kwargs ch =
  delete_flow datapath table match_ (Some (a :: l)) instructions' retries
              kwargs ch.
Proof. unfold delete_flow. by rewrite !get_instructions_some. Qed.

(** X10: when [**kwargs] repeats a keyword that [delete_flow] passes to
    the constructor itself, the call fails with a [TypeError] for such a
    keyword and the channel sees no delivery attempt. *)
Theorem delete_flow_repeated_keyword (datapath : Datapath) (table : Z)
    (match_ : MagmaMatch) (actions : option (list OFPAction))
    (instructions : option (list OFPInstruction)) (retries : option nat)
    (kwargs : gmap string Z) (ch : channel) (k : string) :
  k ∈ delete_flow_keywords →
  is_Some (kwargs !! k) →
  ∃ k', k' ∈ delete_flow_keywords ∧ is_Some (kwargs !! k') ∧
        delete_flow datapath table match_ actions instructions retries
                    kwargs ch = (inl (PyTypeError k'), ch).
Proof.
  intros Hk Hsome. unfold delete_flow.
  assert (Hin : k ∈ filter (λ k, is_Some (kwargs !! k)) delete_flow_keywords)
    by (by apply list_elem_of_filter).
  destruct (filter _ delete_flow_keywords) as [| k' rest] eqn:E.
  - by apply elem_of_nil in Hin.
  - exists k'.
    assert (Hk' : k' ∈ filter (λ k, is_Some (kwargs !! k))
                    delete_flow_keywords)
      by (rewrite E; apply list_elem_of_here).
    apply list_elem_of_filter in Hk' as [Hsome' Hin'].
    by repeat split.
Qed.

(** X11: [delete_flow] builds its instructions the way an add without
    forwarding target does: if the add compiles for a table, a match and
    actions or instructions, the delete for the same arguments hands to
    [send_msg] a delete command with the same table, match and
    instruction list, and the wildcard output group and port. *)
Theorem delete_flow_mirrors_add (datapath : Datapath) (table : Z)
    (match_ : MagmaMatch) (kw : flow_kwargs) (mod_ : OFPFlowMod)
    (retries : option nat) (ch : channel) :
  kw_resubmit_next_service kw = None →
  kw_resubmit_current_service kw = None →
  get_add_flow_msg datapath table match_ kw = inr mod_ →
  ∃ del,
    delete_flow datapath table match_ (kw_actions kw) (kw_instructions kw)
                retries ∅ ch =
    send_msg datapath del (default 3%nat retries) ch ∧
    fm_instructions del = fm_instructions mod_ ∧
    fm_table_id del = fm_table_id mod_ ∧
    fm_match del = fm_match mod_ ∧
    fm_command del = Some (OFPFC_DELETE (dp_ofproto datapath)) ∧
    fm_out_group del = Some (OFPG_ANY (dp_ofproto datapath)) ∧
    fm_out_port del = Some (OFPP_ANY (dp_ofproto datapath)).
Proof.
  intros Hnext Hcur Hget.
  rewrite get_add_flow_msg_cases in Hget.
  destruct (existsb is_resubmit _); [discriminate |].
  rewrite Hnext in Hget. injection Hget as <-.
  eexists. split.
  - apply delete_flow_dispatch. intros k _. apply lookup_empty.
  - simpl. repeat split.
    unfold extended_actions. rewrite Hnext, Hcur.
    by destruct (kw_actions kw) as [[| a l] |].
Qed.

End Flows.

(** ** The properties at sample calls *)

Lemma sample_no_resubmit : ¬ has_resubmit [OFPActionOther 7].
Proof. rewrite <- existsb_is_resubmit. discriminate. Qed.

Lemma sample_no_scratch_load :
  ¬ has_scratch_load sample_regs [OFPActionOther 7].
Proof. rewrite <- existsb_is_scratch_reg_load. discriminate. Qed.

Lemma sample_scratch_load :
  has_scratch_load sample_regs [NXActionRegLoad2 "reg2" 9].
Proof. by apply existsb_is_scratch_reg_load. Qed.

Lemma next_service_action_sequence_witness :
  get_add_flow_msg sample_regs sample_datapath 1 MagmaMatch_empty
    (sample_kwargs (Some [OFPActionOther 7]) (Some 5) None) =
  inr (add_flow_mod sample_datapath 1 MagmaMatch_empty
         (sample_kwargs (Some [OFPActionOther 7]) (Some 5) None)
         [OFPInstructionActions 4
            [OFPActionOther 7; NXActionResubmitTable 5;
             NXActionRegLoad2 "reg1" 0; NXActionRegLoad2 "reg2" 0;
             NXActionRegLoad2 "reg3" 0]]).
Proof.
  exact (proj1 (next_service_action_sequence sample_regs sample_datapath 1
                  MagmaMatch_empty
                  (sample_kwargs (Some [OFPActionOther 7]) (Some 5) None)
                  [OFPActionOther 7] 5 eq_refl eq_refl
                  sample_no_resubmit sample_no_scratch_load)).
Defined.

Lemma raw_resubmit_rejected_witness :
  get_add_flow_msg sample_regs sample_datapath 1 MagmaMatch_empty
    (sample_kwargs (Some [OFPActionOther 7; NXActionResubmitTable 4])
       None (Some 3)) =
  inl RawResubmitNotAllowed ∧
  get_add_flow_msg sample_regs sample_datapath 1 MagmaMatch_empty
    (sample_kwargs (Some [OFPActionOther 7]) None (Some 3)) ≠
  inl RawResubmitNotAllowed.
Proof.
  split.
  - apply (raw_resubmit_rejected sample_regs sample_datapath 1
             MagmaMatch_empty
             (sample_kwargs
                (Some [OFPActionOther 7; NXActionResubmitTable 4])
                None (Some 3))).
    apply existsb_is_resubmit. reflexivity.
  - apply (raw_resubmit_rejected sample_regs sample_datapath 1
             MagmaMatch_empty
             (sample_kwargs (Some [OFPActionOther 7]) None (Some 3))).
    exact sample_no_resubmit.
Defined.

(** The claim C3 as written fails on an action list that holds both a
    scratch register load and a raw forward-to-table action: the raw
    resubmit check comes first and its error is the one raised. *)
Lemma scratch_load_after_raw_resubmit_counterexample :
  let actions := [NXActionRegLoad2 "reg2" 9; NXActionResubmitTable 4] in
  let kw := sample_kwargs (Some actions) (Some 5) None in
  kw_resubmit_next_service kw = Some 5 ∧
  has_scratch_load sample_regs actions ∧
  get_add_flow_msg sample_regs sample_datapath 1 MagmaMatch_empty kw =
  inl RawResubmitNotAllowed ∧
  get_add_flow_msg sample_regs sample_datapath 1 MagmaMatch_empty kw ≠
  inl ScratchRegisterConflict.
Proof.
  repeat split.
  - by apply existsb_is_scratch_reg_load.
  - discriminate.
Qed.

Lemma scratch_register_conflict_witness :
  get_add_flow_msg sample_regs sample_datapath 1 MagmaMatch_empty
    (sample_kwargs (Some [NXActionRegLoad2 "reg2" 9]) (Some 5) None) =
  inl ScratchRegisterConflict.
Proof.
  apply (scratch_register_conflict sample_regs sample_datapath 1
           MagmaMatch_empty
           (sample_kwargs (Some [NXActionRegLoad2 "reg2" 9]) (Some 5) None)).
  split; [by eexists |]. split.
  - rewrite <- existsb_is_resubmit. discriminate.
  - exact sample_scratch_load.
Defined.

Lemma current_service_action_sequence_witness :
  get_add_flow_msg sample_regs sample_datapath 1 MagmaMatch_empty
    (sample_kwargs (Some [OFPActionOther 7]) None (Some 3)) =
  inr (add_flow_mod sample_datapath 1 MagmaMatch_empty
         (sample_kwargs (Some [OFPActionOther 7]) None (Some 3))
         [OFPInstructionActions 4
            [OFPActionOther 7; NXActionResubmitTable 3]]).
Proof.
  exact (current_service_action_sequence sample_regs sample_datapath 1
           MagmaMatch_empty
           (sample_kwargs (Some [OFPActionOther 7]) None (Some 3))
           [OFPActionOther 7] 3 eq_refl eq_refl eq_refl sample_no_resubmit).
Defined.

Lemma instruction_sequence_witness :
  get_add_flow_msg sample_regs sample_datapath 1 MagmaMatch_empty
    (sample_kwargs (Some []) None None) =
  inr (add_flow_mod sample_datapath 1 MagmaMatch_empty
         (sample_kwargs (Some []) None None) []).
Proof.
  apply (instruction_sequence sample_regs sample_datapath 1 MagmaMatch_empty
           (sample_kwargs (Some []) None None)); reflexivity.
Defined.

Lemma add_flow_retry_budget_witness :
  let kw := sample_kwargs (Some [OFPActionOther 7]) None None in
  let mod_ :=
    add_flow_mod sample_datapath 1 MagmaMatch_empty kw
      [OFPInstructionActions 4 [OFPActionOther 7]] in
  add_flow sample_regs sample_datapath 1 MagmaMatch_empty (Some 2%nat) kw
    (fails_first 2) =
  (inr (), acknowledged mod_ (refused 2 mod_ (fails_first 2))) ∧
  add_flow sample_regs sample_datapath 1 MagmaMatch_empty (Some 2%nat) kw
    always_fails =
  (inl (MagmaOFError 3), refused 3 mod_ always_fails).
Proof.
  intros kw mod_. split.
  - apply (add_flow_retry_budget sample_regs sample_datapath 1
             MagmaMatch_empty kw 2 mod_ (fails_first 2) eq_refl).
    + intros i Hi. change ((2 <=? i)%nat = false).
      apply Nat.leb_gt. exact Hi.
    + reflexivity.
  - apply (add_flow_retry_budget sample_regs sample_datapath 1
             MagmaMatch_empty kw 2 mod_ always_fails eq_refl).
    intros i Hi. reflexivity.
Defined.

Lemma priority_defaults_to_minimum_witness :
  ∃ mod_,
    get_add_flow_msg sample_regs sample_datapath 1 MagmaMatch_empty
      (sample_kwargs (Some [OFPActionOther 7]) None None) = inr mod_ ∧
    fm_priority mod_ = Some MINIMUM_PRIORITY ∧
    fm_priority mod_ = Some 0 ∧
    fm_priority mod_ ≠ Some DEFAULT_PRIORITY ∧
    add_flow sample_regs sample_datapath 1 MagmaMatch_empty None
      (sample_kwargs (Some [OFPActionOther 7]) None None) (fails_first 0) =
    send_msg sample_datapath mod_ 3 (fails_first 0).
Proof.
  apply (priority_defaults_to_minimum sample_regs sample_datapath 1
           MagmaMatch_empty None
           (sample_kwargs (Some [OFPActionOther 7]) None None)
           (fails_first 0) eq_refl).
  - exact sample_no_resubmit.
  - intros _. exact sample_no_scratch_load.
Defined.

Lemma next_service_takes_precedence_witness :
  get_add_flow_msg sample_regs sample_datapath 1 MagmaMatch_empty
    (sample_kwargs (Some [OFPActionOther 7]) (Some 5) (Some 3)) =
  inr (add_flow_mod sample_datapath 1 MagmaMatch_empty
         (sample_kwargs (Some [OFPActionOther 7]) (Some 5) (Some 3))
         [OFPInstructionActions 4
            [OFPActionOther 7; NXActionResubmitTable 5;
             NXActionRegLoad2 "reg1" 0; NXActionRegLoad2 "reg2" 0;
             NXActionRegLoad2 "reg3" 0]]).
Proof.
  apply (next_service_takes_precedence sample_regs sample_datapath 1
           MagmaMatch_empty
           (sample_kwargs (Some [OFPActionOther 7]) (Some 5) (Some 3))
           5 3 eq_refl eq_refl).
  - exact sample_no_resubmit.
  - exact sample_no_scratch_load.
Defined.

Lemma delete_flow_unchecked_witness :
  delete_flow sample_datapath 1 MagmaMatch_empty
    (Some [NXActionResubmitTable 4; NXActionRegLoad2 "reg2" 9]) None
    (Some 0%nat) ∅ (fails_first 0) =
  send_msg sample_datapath
    (delete_flow_mod sample_datapath 1 MagmaMatch_empty
       [OFPInstructionActions 4
          [NXActionResubmitTable 4; NXActionRegLoad2 "reg2" 9]] ∅)
    0 (fails_first 0).
Proof.
  apply (delete_flow_unchecked sample_datapath 1 MagmaMatch_empty
           (Some [NXActionResubmitTable 4; NXActionRegLoad2 "reg2" 9]) None
           (Some 0%nat) ∅ (fails_first 0)).
  intros k _. apply lookup_empty.
Defined.

(** ** Further properties at sample calls *)

Lemma existsb_no_scratch_registers (actions : list OFPAction) :
  existsb (is_scratch_reg_load []) actions = false.
Proof.
  induction actions as [| [| dst value |] actions IH]; simpl; done.
Qed.

(** X12: with no scratch register at all, forwarding to the next service
    compiles to what forwarding within the current service to the same
    table compiles to. *)
Theorem no_scratch_registers_next_is_current (datapath : Datapath)
    (table : Z) (match_ : MagmaMatch) (kw : flow_kwargs) (next : Z) :
  kw_resubmit_next_service kw = Some next →
  get_add_flow_msg [] datapath table match_ kw =
  get_add_flow_msg [] datapath table match_
    (with_forwarding kw None (Some next)).
Proof.
  intros Hnext. rewrite !get_add_flow_msg_cases. simpl.
  rewrite Hnext, existsb_no_scratch_registers.
  unfold extended_actions. simpl. by rewrite Hnext.
Qed.

Lemma add_message_fields_witness :
  let kw :=
    {| kw_actions := Some [OFPActionOther 7];
       kw_instructions := None;
       kw_priority := Some 70000;
       kw_cookie := Some 9;
       kw_idle_timeout := None;
       kw_hard_timeout := None;
       kw_resubmit_next_service := Some 5;
       kw_resubmit_current_service := None |} in
  MAXIMUM_PRIORITY < 70000 ∧
  ∃ mod_,
    get_add_flow_msg sample_regs sample_datapath 1 MagmaMatch_empty kw =
    inr mod_ ∧
    fm_table_id mod_ = 1 ∧ fm_priority mod_ = Some 70000 ∧
    fm_cookie mod_ = Some 9.
Proof.
  intros kw. split; [reflexivity |].
  destruct (proj1 (add_message_fields sample_regs sample_datapath 1
                     MagmaMatch_empty kw)
              sample_no_resubmit (λ _, sample_no_scratch_load))
    as (mod_ & Hget & Hcarries & Hpriority).
  exists mod_. split; [exact Hget |].
  destruct Hcarries as (_ & Htable & _ & _ & Hcookie & _).
  exact (conj Htable (conj (Hpriority 70000 eq_refl) Hcookie)).
Defined.

Lemma get_add_flow_msg_errors_witness :
  (ScratchRegisterConflict = RawResubmitNotAllowed ∧
   has_resubmit [NXActionRegLoad2 "reg2" 9]) ∨
  (ScratchRegisterConflict = ScratchRegisterConflict ∧
   is_Some (Some 5) ∧
   has_scratch_load sample_regs [NXActionRegLoad2 "reg2" 9]).
Proof.
  exact (get_add_flow_msg_errors sample_regs sample_datapath 1
           MagmaMatch_empty
           (sample_kwargs (Some [NXActionRegLoad2 "reg2" 9]) (Some 5) None)
           ScratchRegisterConflict eq_refl).
Defined.

Lemma validation_ignores_order_witness :
  get_add_flow_msg sample_regs sample_datapath 1 MagmaMatch_empty
    (with_actions (sample_kwargs None (Some 5) None)
       (Some [NXActionRegLoad2 "reg2" 9; OFPActionOther 7])) =
  inl ScratchRegisterConflict ↔
  get_add_flow_msg sample_regs sample_datapath 1 MagmaMatch_empty
    (with_actions (sample_kwargs None (Some 5) None)
       (Some [OFPActionOther 7; NXActionRegLoad2 "reg2" 9])) =
  inl ScratchRegisterConflict.
Proof.
  apply (validation_ignores_order sample_regs sample_datapath 1
           MagmaMatch_empty (sample_kwargs None (Some 5) None)).
  apply Permutation_swap.
Defined.

Lemma instructions_ignored_witness :
  get_add_flow_msg sample_regs sample_datapath 1 MagmaMatch_empty
    (with_instructions (sample_kwargs None None (Some 3))
       (Some [OFPInstructionOther 1])) =
  get_add_flow_msg sample_regs sample_datapath 1 MagmaMatch_empty
    (sample_kwargs None None (Some 3)).
Proof.
  apply (instructions_ignored sample_regs sample_datapath 1 MagmaMatch_empty
           (sample_kwargs None None (Some 3))
           (Some [OFPInstructionOther 1])).
  right. left. by eexists.
Defined.

Lemma compiled_actions_rejected_witness :
  ∃ actions,
    fm_instructions
      (add_flow_mod sample_datapath 1 MagmaMatch_empty
         (sample_kwargs (Some [OFPActionOther 7]) None (Some 3))
         [OFPInstructionActions 4
            [OFPActionOther 7; NXActionResubmitTable 3]]) =
    apply_actions sample_datapath actions ∧
    ∀ datapath' table' match' kw',
      kw_actions kw' = Some actions →
      get_add_flow_msg sample_regs datapath' table' match' kw' =
      inl RawResubmitNotAllowed.
Proof.
  apply (compiled_actions_rejected sample_regs sample_datapath 1
           MagmaMatch_empty
           (sample_kwargs (Some [OFPActionOther 7]) None (Some 3))).
  - reflexivity.
  - right. by eexists.
Defined.

Lemma delete_flow_repeated_keyword_witness :
  ∃ k', k' ∈ delete_flow_keywords ∧
        is_Some (({["command" := 0]} : gmap string Z) !! k') ∧
        delete_flow sample_datapath 1 MagmaMatch_empty None None None
                    {["command" := 0]} (fails_first 0) =
        (inl (PyTypeError k'), fails_first 0).
Proof.
  apply (delete_flow_repeated_keyword sample_datapath 1 MagmaMatch_empty
           None None None {["command" := 0]} (fails_first 0) "command").
  - unfold delete_flow_keywords. set_solver.
  - by eexists.
Defined.

Lemma delete_flow_mirrors_add_witness :
  ∃ del,
    delete_flow sample_datapath 1 MagmaMatch_empty
                (Some [OFPActionOther 7]) None (Some 1%nat) ∅
                (fails_first 1) =
    send_msg sample_datapath del 1 (fails_first 1) ∧
    fm_instructions del = [OFPInstructionActions 4 [OFPActionOther 7]] ∧
    fm_table_id del = 1 ∧
    fm_match del = {| match_fields := ∅ |} ∧
    fm_command del = Some 3 ∧
    fm_out_group del = Some 0xffffffff ∧
    fm_out_port del = Some 0xffffffff.
Proof.
  exact (delete_flow_mirrors_add sample_regs sample_datapath 1
           MagmaMatch_empty
           (sample_kwargs (Some [OFPActionOther 7]) None None)
           (add_flow_mod sample_datapath 1 MagmaMatch_empty
              (sample_kwargs (Some [OFPActionOther 7]) None None)
              [OFPInstructionActions 4 [OFPActionOther 7]])
           (Some 1%nat) (fails_first 1) eq_refl eq_refl eq_refl).
Defined.

Lemma no_scratch_registers_next_is_current_witness :
  get_add_flow_msg [] sample_datapath 1 MagmaMatch_empty
    (sample_kwargs (Some [NXActionRegLoad2 "reg2" 9]) (Some 5) None) =
  get_add_flow_msg [] sample_datapath 1 MagmaMatch_empty
    (with_forwarding
       (sample_kwargs (Some [NXActionRegLoad2 "reg2" 9]) (Some 5) None)
       None (Some 5)).
Proof.
  exact (no_scratch_registers_next_is_current sample_datapath 1
           MagmaMatch_empty
           (sample_kwargs (Some [NXActionRegLoad2 "reg2" 9]) (Some 5) None)
           5 eq_refl).
Defined.

Lemma add_message_without_instructions_witness :
  fm_instructions
    (add_flow_mod sample_datapath 1 MagmaMatch_empty
       (sample_kwargs (Some []) None None) []) = [] ↔
  default [] (Some ([] : list OFPAction)) = [] ∧
  default [] (None : option (list OFPInstruction)) = [] ∧
  (None : option Z) = None ∧ (None : option Z) = None.
Proof.
  exact (add_message_without_instructions sample_regs sample_datapath 1
           MagmaMatch_empty (sample_kwargs (Some []) None None)
           (add_flow_mod sample_datapath 1 MagmaMatch_empty
              (sample_kwargs (Some []) None None) [])
           eq_refl).
Defined.
